(** * packtools: the package descriptor [setup.py]

    A shallow embedding of [setup.py] and of the [posixpath] functions
    behind its calls to [os.path.join] and [os.path.dirname], with the
    properties of the descriptor that follow from them.  Python [str]
    values are [string]; the keyword arguments of the [setup(...)] call
    are an association list in source order. *)

From Stdlib Require Import Strings.String Strings.Ascii List ZArith Bool Lia.
Import ListNotations.
Local Open Scope string_scope.
Local Open Scope list_scope.

(** ** Python string primitives used by [posixpath] *)

Module PyStr.

(** [s[:i]] for [0 <= i]. *)
Fixpoint slice_to (i : nat) (s : string) : string :=
  match i, s with
  | O, _ => EmptyString
  | S _, EmptyString => EmptyString
  | S j, String c s' => String c (slice_to j s')
  end.

(** [s[i:]] for [0 <= i]. *)
Fixpoint slice_from (i : nat) (s : string) : string :=
  match i, s with
  | O, _ => s
  | S _, EmptyString => EmptyString
  | S j, String _ s' => slice_from j s'
  end.

(** [s.rfind(c)] for a one-character [c]: scan left to right from index
    [i], remembering the last index seen; [-1] when there is none. *)
Fixpoint rfind_from (c : ascii) (s : string) (i last : Z) : Z :=
  match s with
  | EmptyString => last
  | String x s' =>
      rfind_from c s' (i + 1)%Z (if Ascii.eqb x c then i else last)
  end.

Definition rfind (s : string) (c : ascii) : Z := rfind_from c s 0%Z (-1)%Z.

(** [s.startswith(c)] for a one-character [c]. *)
Definition startswith (s : string) (c : ascii) : bool :=
  match s with
  | EmptyString => false
  | String x _ => Ascii.eqb x c
  end.

(** [s.endswith(c)] for a one-character [c]. *)
Fixpoint endswith (s : string) (c : ascii) : bool :=
  match s with
  | EmptyString => false
  | String x EmptyString => Ascii.eqb x c
  | String _ s' => endswith s' c
  end.

(** [s.rstrip(c)] for a one-character [c]. *)
Fixpoint rstrip (s : string) (c : ascii) : string :=
  match s with
  | EmptyString => EmptyString
  | String x s' =>
      match rstrip s' c with
      | EmptyString => if Ascii.eqb x c then EmptyString else String x EmptyString
      | r => String x r
      end
  end.

(** [c * n]. *)
Fixpoint repeat (c : ascii) (n : nat) : string :=
  match n with
  | O => EmptyString
  | S m => String c (repeat c m)
  end.

(** Truth value of a string: [bool(s)]. *)
Definition truthy (s : string) : bool :=
  match s with
  | EmptyString => false
  | String _ _ => true
  end.

(** [c in s]. *)
Fixpoint contains (s : string) (c : ascii) : bool :=
  match s with
  | EmptyString => false
  | String x s' => Ascii.eqb x c || contains s' c
  end.

(** Not a primitive of Python, used to state facts: every character of
    [s] is [c], which is what [s == c * len(s)] tests. *)
Fixpoint only (c : ascii) (s : string) : bool :=
  match s with
  | EmptyString => true
  | String x s' => Ascii.eqb x c && only c s'
  end.

End PyStr.

(** ** [os.path] on POSIX ([posixpath]) *)

Module OsPath.
Import PyStr.

(** [sep = '/'] *)
Definition sep : ascii := "/"%char.

(** One round of the loop of [posixpath.join]:
<<
    if b.startswith(sep):            path = b
    elif not path or path.endswith(sep): path += b
    else:                            path += sep + b
>> *)
Definition join_step (path b : string) : string :=
  if startswith b sep then b
  else if negb (truthy path) || endswith path sep then path ++ b
  else path ++ String sep b.

(** [os.path.join(a, *p)] *)
Definition join (a : string) (p : list string) : string :=
  fold_left join_step p a.

(** [os.path.dirname(p)]:
<<
    i = p.rfind(sep) + 1
    head = p[:i]
    if head and head != sep*len(head):
        head = head.rstrip(sep)
    return head
>> *)
Definition dirname (p : string) : string :=
  let i := Z.to_nat (rfind p sep + 1) in
  let head := slice_to i p in
  if truthy head && negb (head =? repeat sep (String.length head))
  then rstrip head sep
  else head.

(** [os.path.basename(p)]:
<<
    i = p.rfind(sep) + 1
    return p[i:]
>> *)
Definition basename (p : string) : string :=
  let i := Z.to_nat (rfind p sep + 1) in
  slice_from i p.

(** [os.path.isabs(s)] *)
Definition isabs (s : string) : bool := startswith s sep.

(** Not a function of [posixpath], used to state facts: what one round
    of [join] puts in front of a relative [b], the second and third
    branch of [join_step] read together. *)
Definition prefix_of (path : string) : string :=
  if negb (truthy path) || endswith path sep then path
  else path ++ String sep "".

End OsPath.

(** ** The descriptor *)

Module Setup.
Import OsPath.

(** A keyword argument of the [setup] call is a string or a list of
    strings. *)
Inductive pyval : Type :=
| PyString (s : string)
| PyList (l : list string).

(** [def _path(fn): return os.path.join(os.path.dirname(__file__), fn)];
    the module global [__file__] is the first argument. *)
Definition _path (__file__ : string) (fn : string) : string :=
  join (dirname __file__) [fn].

(** The [scripts=[...]] argument. *)
Definition scripts (__file__ : string) : list string :=
  [ _path __file__ (join "scripts" ["multipip"]);
    _path __file__ (join "scripts" ["pip-download"]);
    _path __file__ (join "scripts" ["py2rpm"]);
    _path __file__ (join "scripts" ["specprint"]);
    _path __file__ (join "scripts" ["yyoom"]) ].

(** The last components of the five [os.path.join('scripts', ...)]
    calls above, in source order; used to state facts about [scripts]. *)
Definition script_names : list string :=
  [ "multipip"; "pip-download"; "py2rpm"; "specprint"; "yyoom" ].

(** The [install_requires=[...]] argument. *)
Definition install_requires : list string :=
  [ "argparse";
    "pip>=1.3";
    "six>=1.4.1" ].

(** The [classifiers=[...]] argument. *)
Definition classifiers : list string :=
  [ "Development Status :: 4 - Beta";
    "Topic :: Utilities";
    "Operating System :: POSIX :: Linux";
    "Programming Language :: Python" ].

(** The keyword arguments of [setup(...)], in source order. *)
Definition setup_kwargs (__file__ : string) : list (string * pyval) :=
  [ ("name", PyString "packtools");
    ("version", PyString "0.0.1");
    ("description", PyString "Packaging toolbelt");
    ("author", PyString "OpenStack Foundation");
    ("author_email", PyString "openstack-dev@lists.openstack.org");
    ("url", PyString "https://github.com/harlowja/packtools/");
    ("scripts", PyList (scripts __file__));
    ("install_requires", PyList install_requires);
    ("classifiers", PyList classifiers);
    ("keywords", PyString "packaging rpm pip yum specfile") ].

(** Reading one keyword out of the argument list. *)
Fixpoint kwarg (k : string) (kw : list (string * pyval)) : option pyval :=
  match kw with
  | [] => None
  | (k', v) :: rest => if (k' =? k)%string then Some v else kwarg k rest
  end.

End Setup.

(** ** Files behind paths *)

Module Fs.
Import PyStr OsPath.

(** The names a path is made of, as pathname resolution reads them:
    the pieces between separators, empty pieces dropped (several
    separators in a row count as one).  [cur] is the piece being read. *)
Fixpoint components_from (cur : string) (p : string) : list string :=
  match p with
  | EmptyString => if truthy cur then [cur] else []
  | String x p' =>
      if Ascii.eqb x sep
      then (if truthy cur then [cur] else []) ++ components_from "" p'
      else components_from (cur ++ String x "") p'
  end.

Definition components (p : string) : list string := components_from "" p.

Section Namei.

(** A filesystem: its nodes, the root directory, and the entry of a
    given name in a directory node, if there is one ([.] and [..] are
    entries like the others, and a link to a directory is followed by
    [lookup]). *)
Variable node : Type.
Variable root : node.
Variable lookup : node -> string -> option node.

(** Following names one after the other from a node. *)
Fixpoint walk (d : option node) (names : list string) : option node :=
  match names with
  | [] => d
  | c :: rest =>
      walk (match d with Some n => lookup n c | None => None end) rest
  end.

(** The node a path names for a process whose working directory is the
    node [cwd]: an absolute path is followed from the root, a relative
    one from [cwd], and the empty path names nothing. *)
Definition namei (cwd : node) (p : string) : option node :=
  if truthy p
  then walk (Some (if isabs p then root else cwd)) (components p)
  else None.

(** The directory a file spelled [dir ++ base] lies in, [base] being its
    name and [dir] what is written in front of it: the working directory
    when nothing is, else the node [dir] names. *)
Definition directory_of (cwd : node) (dir : string) : option node :=
  if truthy dir then namei cwd dir else Some cwd.

End Namei.
Arguments walk {node} lookup d names.
Arguments namei {node} root lookup cwd p.
Arguments directory_of {node} root lookup cwd dir.

(** An example of a filesystem: no links, every name exists, and a node
    is the list of names that lead to it from the root. *)
Definition lexical_lookup (d : list string) (c : string)
  : option (list string) :=
  if (c =? ".")%string then Some d
  else if (c =? "..")%string then Some (removelast d)
  else Some (d ++ [c])%list.

End Fs.

(** ** The process around the descriptor *)

Module Py.
Import OsPath.

(** What the interpreter process has around it: its working directory,
    which files exist, the paths asked of the filesystem so far (most
    recent first), and which modules can be imported. *)
Record world : Type := World {
  cwd : string;
  fs_exists : string -> bool;
  fs_calls : list string;
  importable : string -> bool
}.

(** A statement either returns or raises. *)
Inductive result (A : Type) : Type :=
| Returned (a : A)
| Raised (exc : string).
Arguments Returned {A} a.
Arguments Raised {A} exc.

(** The objects the module handles. *)
#[warnings="-register-all"]
Inductive object : Type :=
| OStr (s : string)
| OBool (b : bool)
| OList (l : list object)
| OModule (name : string)
| OFunction (qualname : string).

(** The interpreter state: the module's global names and the world. *)
Record state : Type := State {
  globals : string -> option object;
  outside : world
}.

(** Computations of the interpreter: state in, result and state out. *)
Definition py (A : Type) : Type := state -> result A * state.

Definition ret {A} (a : A) : py A := fun s => (Returned a, s).

Definition raise {A} (exc : string) : py A := fun s => (Raised exc, s).

Definition bind {A B} (m : py A) (k : A -> py B) : py B :=
  fun s =>
    match m s with
    | (Returned a, s') => k a s'
    | (Raised e, s') => (Raised e, s')
    end.

Notation "x <- m ;; k" := (bind m (fun x => k))
  (at level 61, m at next level, right associativity).
Notation "m ;;; k" := (bind m (fun _ => k))
  (at level 61, right associativity).

(** Reading a global name; an unbound name is a [NameError]. *)
Definition load_global (name : string) : py object :=
  fun s =>
    match globals s name with
    | Some o => (Returned o, s)
    | None => (Raised "NameError", s)
    end.

(** Binding a global name. *)
Definition store_global (name : string) (o : object) : py unit :=
  fun s =>
    (Returned tt,
     State (fun n => if (n =? name)%string then Some o else globals s n)
           (outside s)).

(** [import name] *)
Definition import_ (name : string) : py unit :=
  fun s =>
    if importable (outside s) name
    then store_global name (OModule name) s
    else (Raised "ImportError", s).

(** [from pkg import name] *)
Definition from_import (pkg name : string) : py unit :=
  fun s =>
    if importable (outside s) pkg
    then store_global name (OFunction (pkg ++ "." ++ name)) s
    else (Raised "ImportError", s).

(** [def name(...): ...] at module level binds the name to the function. *)
Definition def_ (name : string) : py unit :=
  store_global name (OFunction name).

(** The arguments of a call as strings, when they all are. *)
Fixpoint as_strings (args : list object) : option (list string) :=
  match args with
  | [] => Some []
  | OStr s :: rest => option_map (cons s) (as_strings rest)
  | _ :: _ => None
  end.

(** Calling an attribute of the module [os]: [os.path.join],
    [os.path.dirname], [os.path.exists] (which asks the filesystem) and
    [os.getcwd]; a bad argument is a [TypeError], another attribute an
    [AttributeError]. *)
Definition call_os (attr : string) (args : list object) : py object :=
  if (attr =? "path.join")%string then
    match as_strings args with
    | Some (a :: p) => ret (OStr (join a p))
    | _ => raise "TypeError"
    end
  else if (attr =? "path.dirname")%string then
    match args with
    | [OStr p] => ret (OStr (dirname p))
    | _ => raise "TypeError"
    end
  else if (attr =? "path.exists")%string then
    match args with
    | [OStr p] =>
        fun s =>
          let w := outside s in
          (Returned (OBool (fs_exists w p)),
           State (globals s)
                 (World (cwd w) (fs_exists w) (p :: fs_calls w) (importable w)))
    | _ => raise "TypeError"
    end
  else if (attr =? "getcwd")%string then
    match args with
    | [] => fun s => (Returned (OStr (cwd (outside s))), s)
    | _ => raise "TypeError"
    end
  else raise "AttributeError".

(** [m.attr(args)] *)
Definition call_attr (m : object) (attr : string) (args : list object)
  : py object :=
  match m with
  | OModule name =>
      if (name =? "os")%string then call_os attr args
      else raise "AttributeError"
  | _ => raise "AttributeError"
  end.

(** The body of [_path], run at each call:
    [return os.path.join(os.path.dirname(__file__), fn)]. *)
Definition _path_body (args : list object) : py object :=
  match args with
  | [fn] =>
      os_join <- load_global "os" ;;
      os_dirname <- load_global "os" ;;
      file <- load_global "__file__" ;;
      d <- call_attr os_dirname "path.dirname" [file] ;;
      call_attr os_join "path.join" [d; fn]
  | _ => raise "TypeError"
  end.

(** [f(args)] for a function defined by the module. *)
Definition call (f : object) (args : list object) : py object :=
  match f with
  | OFunction q =>
      if (q =? "_path")%string then _path_body args else raise "TypeError"
  | _ => raise "TypeError"
  end.

(** [f(name=value, ...)] for [setuptools.setup]: the build tool takes
    over with the keyword arguments, which are the outcome of running
    the module. *)
Definition call_keywords (f : object) (kw : list (string * object))
  : py (list (string * object)) :=
  match f with
  | OFunction q =>
      if (q =? "setuptools.setup")%string then ret kw else raise "TypeError"
  | _ => raise "TypeError"
  end.

(** One entry of the [scripts] list:
    [_path(os.path.join('scripts', name))]. *)
Definition scripts_item (name : string) : py object :=
  f <- load_global "_path" ;;
  os <- load_global "os" ;;
  a <- call_attr os "path.join" [OStr "scripts"; OStr name] ;;
  call f [a].

(** The module, statement by statement. *)
Definition module_body : py (list (string * object)) :=
  import_ "os" ;;;
  from_import "setuptools" "setup" ;;;
  def_ "_path" ;;;
  setup <- load_global "setup" ;;
  s1 <- scripts_item "multipip" ;;
  s2 <- scripts_item "pip-download" ;;
  s3 <- scripts_item "py2rpm" ;;
  s4 <- scripts_item "specprint" ;;
  s5 <- scripts_item "yyoom" ;;
  call_keywords setup
    [ ("name", OStr "packtools");
      ("version", OStr "0.0.1");
      ("description", OStr "Packaging toolbelt");
      ("author", OStr "OpenStack Foundation");
      ("author_email", OStr "openstack-dev@lists.openstack.org");
      ("url", OStr "https://github.com/harlowja/packtools/");
      ("scripts", OList [s1; s2; s3; s4; s5]);
      ("install_requires",
       OList [ OStr "argparse"; OStr "pip>=1.3"; OStr "six>=1.4.1" ]);
      ("classifiers",
       OList [ OStr "Development Status :: 4 - Beta";
               OStr "Topic :: Utilities";
               OStr "Operating System :: POSIX :: Linux";
               OStr "Programming Language :: Python" ]);
      ("keywords", OStr "packaging rpm pip yum specfile") ].

(** The globals of a script as the interpreter starts it. *)
Definition script_globals (__file__ : string) : string -> option object :=
  fun n =>
    if (n =? "__file__")%string then Some (OStr __file__)
    else if (n =? "__name__")%string then Some (OStr "__main__")
    else None.

(** Running the descriptor as a script. *)
Definition run_script (__file__ : string) (w : world)
  : result (list (string * object)) * state :=
  module_body (State (script_globals __file__) w).

(** The globals once the module has run from globals [g]: its three
    bindings in front of [g]. *)
Definition module_globals (g : string -> option object)
  : string -> option object :=
  fun n =>
    if (n =? "_path")%string then Some (OFunction "_path")
    else if (n =? "setup")%string then Some (OFunction "setuptools.setup")
    else if (n =? "os")%string then Some (OModule "os")
    else g n.

(** The keyword arguments of [Setup.setup_kwargs] as objects. *)
Definition to_object (v : Setup.pyval) : object :=
  match v with
  | Setup.PyString s => OStr s
  | Setup.PyList l => OList (map OStr l)
  end.

Definition to_keywords (kw : list (string * Setup.pyval))
  : list (string * object) :=
  map (fun kv => (fst kv, to_object (snd kv))) kw.

(** The file a path names for a process whose working directory is
    [cwd]: [os.path.abspath] before normalisation, that is
    [join(os.getcwd(), path)] (an absolute [path] is kept by [join]). *)
Definition resolve (cwd path : string) : string := join cwd [path].

(** The shape of a value of [os.getcwd()]: absolute, and without a
    trailing separator unless it is a root (only separators). *)
Definition is_cwd (c : string) : bool :=
  isabs c &&
  ((c =? PyStr.repeat sep (String.length c))%string || negb (PyStr.endswith c sep)).

End Py.

(** ** Dependency specifiers *)

Module Requirement.

Inductive comparator : Type := Ge | Le | Eq | Ne | Compatible | Gt | Lt.

Record requirement : Type := Req {
  req_name : string;
  req_constraint : option (comparator * string)
}.

Definition in_range (lo hi : ascii) (c : ascii) : bool :=
  (N.leb (N_of_ascii lo) (N_of_ascii c) && N.leb (N_of_ascii c) (N_of_ascii hi))%bool.

Definition is_alnum (c : ascii) : bool :=
  in_range "a" "z" c || in_range "A" "Z" c || in_range "0" "9" c.

Definition is_name_char (c : ascii) : bool :=
  is_alnum c || Ascii.eqb c "." || Ascii.eqb c "_" || Ascii.eqb c "-".

Definition is_version_char (c : ascii) : bool :=
  is_alnum c || Ascii.eqb c "." || Ascii.eqb c "*" || Ascii.eqb c "+"
  || Ascii.eqb c "!" || Ascii.eqb c "_" || Ascii.eqb c "-".

(** Longest prefix of characters satisfying [f], and the rest. *)
Fixpoint span (f : ascii -> bool) (s : string) : string * string :=
  match s with
  | EmptyString => (EmptyString, EmptyString)
  | String c s' =>
      if f c then let (a, b) := span f s' in (String c a, b)
      else (EmptyString, s)
  end.

Fixpoint all_chars (f : ascii -> bool) (s : string) : bool :=
  match s with
  | EmptyString => true
  | String c s' => f c && all_chars f s'
  end.

Definition parse_comparator (s : string) : option (comparator * string) :=
  match s with
  | String ">" (String "=" v) => Some (Ge, v)
  | String "<" (String "=" v) => Some (Le, v)
  | String "=" (String "=" v) => Some (Eq, v)
  | String "!" (String "=" v) => Some (Ne, v)
  | String "~" (String "=" v) => Some (Compatible, v)
  | String ">" v => Some (Gt, v)
  | String "<" v => Some (Lt, v)
  | _ => None
  end.

(** Modelled from the spec: the parser of dependency specifiers belongs
    to the build tool and is not part of the repository.  A specifier is
    "a name plus optional version constraint": a name of letters, digits,
    [.], [_] and [-] that starts with a letter or digit, then either
    nothing or a comparison operator followed by a non-empty version. *)
Definition parse_requirement (s : string) : option requirement :=
  let (name, rest) := span is_name_char s in
  if negb (match name with String c _ => is_alnum c | EmptyString => false end)
  then None
  else
    match rest with
    | EmptyString => Some (Req name None)
    | _ =>
        match parse_comparator rest with
        | Some (op, String c v) =>
            if all_chars is_version_char (String c v)
            then Some (Req name (Some (op, String c v)))
            else None
        | _ => None
        end
    end.

(** A specifier that parses. *)
Definition is_valid (s : string) : bool :=
  match parse_requirement s with Some _ => true | None => false end.

(** A specifier whose constraint is a minimum version, [name>=version]. *)
Definition has_minimum_version (s : string) : bool :=
  match parse_requirement s with
  | Some (Req _ (Some (Ge, _))) => true
  | _ => false
  end.

(** The package a specifier names. *)
Definition package_name (s : string) : option string :=
  option_map req_name (parse_requirement s).

End Requirement.

(** ** Facts about the string primitives *)

Module PyStrFacts.
Import PyStr.

Lemma append_nil_r (s : string) : (s ++ "")%string = s.
Proof. induction s as [|x s IH]; simpl; [reflexivity | now rewrite IH]. Qed.

Lemma append_assoc (a b c : string) :
  ((a ++ b) ++ c)%string = (a ++ (b ++ c))%string.
Proof. induction a as [|x a IH]; simpl; [reflexivity | now rewrite IH]. Qed.

Lemma append_snoc (a : string) (x : ascii) (b : string) :
  ((a ++ String x "") ++ b)%string = (a ++ String x b)%string.
Proof. now rewrite append_assoc. Qed.

Lemma length_append (a b : string) :
  String.length (a ++ b) = String.length a + String.length b.
Proof. induction a as [|x a IH]; simpl; [reflexivity | now rewrite IH]. Qed.

Lemma append_inv_tail (a b c : string) :
  (a ++ c)%string = (b ++ c)%string -> a = b.
Proof.
  revert b; induction a as [|x a IH]; intros [|y b] H; simpl in H.
  - reflexivity.
  - apply (f_equal String.length) in H; simpl in H.
    rewrite length_append in H; lia.
  - apply (f_equal String.length) in H; simpl in H.
    rewrite length_append in H; lia.
  - injection H as -> H. f_equal. now apply IH.
Qed.

Lemma only_repeat (c : ascii) (s : string) :
  (s =? repeat c (String.length s))%string = only c s.
Proof.
  induction s as [|x s IH]; simpl; [reflexivity|].
  rewrite IH. reflexivity.
Qed.

Lemma only_append (c : ascii) (a b : string) :
  only c (a ++ b) = only c a && only c b.
Proof.
  induction a as [|x a IH]; simpl; [reflexivity|].
  now rewrite IH, andb_assoc.
Qed.

Lemma only_startswith (c : ascii) (s : string) :
  startswith s c = false -> truthy s = true -> only c s = false.
Proof. destruct s as [|x s]; simpl; [discriminate | now intros ->]. Qed.

Lemma only_endswith (c : ascii) (s : string) :
  only c s = true -> truthy s = true -> endswith s c = true.
Proof.
  induction s as [|x s IH]; simpl; [discriminate|].
  intros H _. apply andb_prop in H as [Hx Hs].
  destruct s as [|y s]; [exact Hx|]. now apply IH.
Qed.

(** *** [startswith], [endswith] and [truthy] across [++] *)

Lemma truthy_append (a b : string) :
  truthy (a ++ b) = truthy a || truthy b.
Proof. destruct a; reflexivity. Qed.

Lemma truthy_false (s : string) : truthy s = false -> s = ""%string.
Proof. destruct s; [reflexivity | discriminate]. Qed.

Lemma startswith_append (a b : string) (c : ascii) :
  truthy a = true -> startswith (a ++ b) c = startswith a c.
Proof. destruct a; [discriminate | reflexivity]. Qed.

Lemma endswith_append (a b : string) (c : ascii) :
  truthy b = true -> endswith (a ++ b) c = endswith b c.
Proof.
  intros Hb. induction a as [|x a IH]; simpl; [reflexivity|].
  rewrite IH. destruct (a ++ b)%string eqn:E; [|reflexivity].
  destruct a; destruct b; simpl in *; discriminate.
Qed.

Lemma endswith_snoc (s : string) (c : ascii) :
  endswith s c = true -> exists a, s = (a ++ String c "")%string.
Proof.
  induction s as [|x s IH]; simpl; [discriminate|].
  destruct s as [|y s].
  - intros H. apply Ascii.eqb_eq in H as ->. now exists ""%string.
  - intros H. destruct (IH H) as [a Ha]. exists (String x a).
    simpl. now rewrite <- Ha.
Qed.

(** *** [rstrip] *)

Lemma rstrip_only (c : ascii) (s : string) :
  only c s = true -> rstrip s c = ""%string.
Proof.
  induction s as [|x s IH]; simpl; [reflexivity|].
  intros H. apply andb_prop in H as [Hx Hs].
  now rewrite (IH Hs), Hx.
Qed.

Lemma rstrip_truthy (c : ascii) (s : string) :
  only c s = false -> truthy (rstrip s c) = true.
Proof.
  induction s as [|x s IH]; simpl; [discriminate|].
  intros H. destruct (rstrip s c) eqn:E; [|reflexivity].
  destruct (Ascii.eqb x c); [|reflexivity].
  simpl in H. now specialize (IH H).
Qed.

Lemma rstrip_append (c : ascii) (a b : string) :
  truthy (rstrip b c) = true ->
  rstrip (a ++ b) c = (a ++ rstrip b c)%string.
Proof.
  intros Hb. induction a as [|x a IH]; simpl; [reflexivity|].
  rewrite IH. destruct (a ++ rstrip b c)%string eqn:E; [|reflexivity].
  destruct a; destruct (rstrip b c); simpl in *; discriminate.
Qed.

Lemma rstrip_snoc (c : ascii) (a : string) :
  rstrip (a ++ String c "") c = rstrip a c.
Proof.
  induction a as [|x a IH]; simpl.
  - now rewrite Ascii.eqb_refl.
  - now rewrite IH.
Qed.

Lemma rstrip_id (c : ascii) (s : string) :
  endswith s c = false -> rstrip s c = s.
Proof.
  induction s as [|x s IH]; simpl; [reflexivity|].
  destruct s as [|y s].
  - simpl. now intros ->.
  - intros H. rewrite (IH H). reflexivity.
Qed.

Lemma rstrip_startswith (c x : ascii) (s : string) :
  only c s = false -> startswith (rstrip s c) x = startswith s x.
Proof.
  destruct s as [|y s]; simpl; [discriminate|].
  intros H. destruct (rstrip s c) eqn:E; [|reflexivity].
  destruct (Ascii.eqb y c) eqn:Ey; [|reflexivity].
  simpl in H. apply rstrip_truthy in H. rewrite E in H. discriminate.
Qed.

Lemma rstrip_endswith (c : ascii) (s : string) :
  endswith (rstrip s c) c = false.
Proof.
  induction s as [|x s IH]; simpl; [reflexivity|].
  destruct (rstrip s c) eqn:E.
  - destruct (Ascii.eqb x c) eqn:Ex; simpl; [reflexivity | exact Ex].
  - exact IH.
Qed.

(** *** [rfind] and slices *)

Lemma rfind_from_append (c : ascii) (a b : string) (i last : Z) :
  rfind_from c (a ++ b) i last
  = rfind_from c b (i + Z.of_nat (String.length a))%Z (rfind_from c a i last).
Proof.
  revert i last. induction a as [|x a IH]; intros i last; simpl.
  - now rewrite Z.add_0_r.
  - rewrite IH. f_equal. lia.
Qed.

Lemma rfind_from_absent (c : ascii) (s : string) (i last : Z) :
  contains s c = false -> rfind_from c s i last = last.
Proof.
  revert i last. induction s as [|x s IH]; intros i last; simpl; [reflexivity|].
  intros H. apply orb_false_elim in H as [Hx Hs].
  now rewrite Hx, IH.
Qed.

Lemma rfind_last (c : ascii) (a b : string) :
  contains b c = false ->
  rfind (a ++ String c b) c = Z.of_nat (String.length a).
Proof.
  intros Hb. unfold rfind. rewrite rfind_from_append. simpl.
  rewrite Ascii.eqb_refl. now rewrite rfind_from_absent.
Qed.

Lemma rfind_absent (c : ascii) (s : string) :
  contains s c = false -> rfind s c = (-1)%Z.
Proof. apply rfind_from_absent. Qed.

Lemma slice_to_append (a b : string) :
  slice_to (String.length a) (a ++ b) = a.
Proof. induction a as [|x a IH]; simpl; [now destruct b | now rewrite IH]. Qed.

Lemma slice_from_append (a b : string) :
  slice_from (String.length a) (a ++ b) = b.
Proof. induction a as [|x a IH]; simpl; [reflexivity | exact IH]. Qed.

(** A string with a [c] in it splits at its last [c]. *)
Lemma split_last (c : ascii) (s : string) :
  contains s c = true ->
  exists a b, s = (a ++ String c b)%string /\ contains b c = false.
Proof.
  induction s as [|x s IH]; simpl; [discriminate|].
  destruct (contains s c) eqn:Hs.
  - intros _. destruct (IH eq_refl) as (a & b & -> & Hb).
    now exists (String x a), b.
  - rewrite orb_false_r. intros Hx. apply Ascii.eqb_eq in Hx as ->.
    now exists ""%string, s.
Qed.

Lemma contains_startswith (c : ascii) (s : string) :
  startswith s c = true -> contains s c = true.
Proof. destruct s as [|x s]; simpl; [discriminate | now intros ->]. Qed.

End PyStrFacts.

(** ** Facts about [os.path] *)

Module OsPathFacts.
Import PyStr PyStrFacts OsPath.

Lemma join_step_absolute (path b : string) :
  startswith b sep = true -> join_step path b = b.
Proof. unfold join_step. now intros ->. Qed.

Lemma join_step_relative (path b : string) :
  startswith b sep = false -> join_step path b = (prefix_of path ++ b)%string.
Proof.
  unfold join_step, prefix_of. intros ->.
  destruct (negb (truthy path) || endswith path sep); [reflexivity|].
  now rewrite append_snoc.
Qed.

Lemma join_step_empty (b : string) : join_step "" b = b.
Proof. unfold join_step. now destruct (startswith b sep). Qed.

Lemma prefix_of_closed (path : string) :
  truthy path = true -> endswith path sep = false ->
  prefix_of path = (path ++ String sep "")%string.
Proof. unfold prefix_of. now intros -> ->. Qed.

Lemma prefix_of_open (path : string) :
  endswith path sep = true -> prefix_of path = path.
Proof. unfold prefix_of. intros ->. now rewrite orb_true_r. Qed.

(** [dirname] and [basename] of a path split at its last separator. *)
Lemma dirname_split (a b : string) :
  contains b sep = false ->
  dirname (a ++ String sep b)
  = if only sep a then (a ++ String sep "")%string else rstrip a sep.
Proof.
  intros Hb. unfold dirname. rewrite (rfind_last _ _ _ Hb).
  replace (Z.to_nat (Z.of_nat (String.length a) + 1))
    with (String.length (a ++ String sep "")) by (rewrite length_append; simpl; lia).
  rewrite <- (append_snoc a sep b), slice_to_append.
  rewrite only_repeat, only_append, truthy_append, rstrip_snoc. simpl.
  rewrite orb_true_r, andb_true_r. simpl.
  now destruct (only sep a).
Qed.

Lemma dirname_bare (p : string) :
  contains p sep = false -> dirname p = ""%string.
Proof.
  intros H. unfold dirname. rewrite (rfind_absent _ _ H). simpl.
  now destruct p.
Qed.

Lemma basename_split (a b : string) :
  contains b sep = false -> basename (a ++ String sep b) = b.
Proof.
  intros Hb. unfold basename. rewrite (rfind_last _ _ _ Hb).
  replace (Z.to_nat (Z.of_nat (String.length a) + 1))
    with (String.length (a ++ String sep "")) by (rewrite length_append; simpl; lia).
  now rewrite <- (append_snoc a sep b), slice_from_append.
Qed.

(** [dirname p] is empty exactly when [p] has no separator. *)
Lemma dirname_empty_iff (p : string) :
  dirname p = ""%string <-> contains p sep = false.
Proof.
  split; [|apply dirname_bare].
  destruct (contains p sep) eqn:H; [|reflexivity].
  destruct (split_last _ _ H) as (a & b & -> & Hb).
  rewrite (dirname_split _ _ Hb). destruct (only sep a) eqn:Ho.
  - destruct a; discriminate.
  - intros E. apply rstrip_truthy in Ho. rewrite E in Ho. discriminate.
Qed.

(** The directory of an absolute path is absolute. *)
Lemma dirname_absolute (p : string) :
  startswith p sep = true -> startswith (dirname p) sep = true.
Proof.
  intros Hp. destruct (split_last _ _ (contains_startswith _ _ Hp))
    as (a & b & -> & Hb).
  rewrite (dirname_split _ _ Hb). destruct (only sep a) eqn:Ho.
  - destruct a as [|x a]; [reflexivity|].
    simpl in *. now apply andb_prop in Ho as [-> _].
  - rewrite (rstrip_startswith _ _ _ Ho).
    destruct a as [|x a]; [discriminate | exact Hp].
Qed.

(** Joining onto an absolute path gives an absolute path. *)
Lemma join_step_keeps_absolute (d b : string) :
  startswith d sep = true -> startswith (join_step d b) sep = true.
Proof.
  intros Hd. destruct (startswith b sep) eqn:Hb.
  - now rewrite join_step_absolute.
  - rewrite (join_step_relative _ _ Hb), startswith_append.
    + unfold prefix_of. destruct (negb (truthy d) || endswith d sep); [exact Hd|].
      rewrite startswith_append; [exact Hd | now destruct d].
    + unfold prefix_of. destruct (negb (truthy d) || endswith d sep);
        [|rewrite truthy_append]; now destruct d.
Qed.

(** The directory of a relative path with a separator in it. *)
Lemma dirname_relative_split (a b : string) :
  startswith (a ++ String sep b) sep = false -> contains b sep = false ->
  only sep a = false /\ dirname (a ++ String sep b) = rstrip a sep.
Proof.
  intros Hr Hb. assert (Ho : only sep a = false).
  { destruct a as [|x a]; simpl in *.
    - unfold sep in Hr. discriminate.
    - now rewrite Hr. }
  split; [exact Ho|]. now rewrite (dirname_split _ _ Hb), Ho.
Qed.

Section Resolution.

(** A working directory that is a root, or has no trailing separator. *)
Variable cwd : string.
Hypothesis cwd_shape : only sep cwd || negb (endswith cwd sep) = true.

(** The directory of a separator-free name resolved in [cwd] joins like
    [cwd] itself. *)
Lemma prefix_of_dirname_bare (file : string) :
  contains file sep = false ->
  dirname (prefix_of cwd ++ file) = cwd.
Proof.
  intros Hf. unfold prefix_of.
  destruct (truthy cwd) eqn:Ht; simpl.
  - destruct (endswith cwd sep) eqn:He.
    + rewrite orb_false_r in cwd_shape.
      destruct (endswith_snoc _ _ He) as [a Ha].
      rewrite Ha, append_snoc, (dirname_split _ _ Hf).
      rewrite Ha, only_append in cwd_shape.
      apply andb_prop in cwd_shape as [-> _]. reflexivity.
    + rewrite append_snoc, (dirname_split _ _ Hf).
      destruct (only sep cwd) eqn:Ho.
      * rewrite (only_endswith _ _ Ho Ht) in He. discriminate.
      * now apply rstrip_id.
  - apply truthy_false in Ht. subst cwd. simpl. now apply dirname_bare.
Qed.

(** Resolving what [join(dirname(file), fn)] names in [cwd] gives the
    entry [fn] of the directory of the file that [file] names in [cwd]. *)
Lemma resolve_join_dirname (file fn : string) :
  join_step cwd (join_step (dirname file) fn)
  = join_step (dirname (join_step cwd file)) fn.
Proof.
  destruct (startswith fn sep) eqn:Hfn.
  { now rewrite !(join_step_absolute _ fn Hfn). }
  destruct (startswith file sep) eqn:Hfile.
  { rewrite (join_step_absolute _ file Hfile).
    apply join_step_absolute, join_step_keeps_absolute.
    now apply dirname_absolute. }
  rewrite (join_step_relative cwd file Hfile).
  destruct (contains file sep) eqn:Hc.
  - destruct (split_last _ _ Hc) as (a & b & -> & Hb).
    destruct (dirname_relative_split _ _ Hfile Hb) as [Ho ->].
    assert (Ha : truthy a = true) by (destruct a; [discriminate | reflexivity]).
    assert (Hd : truthy (rstrip a sep) = true) by now apply rstrip_truthy.
    rewrite <- append_assoc, (dirname_split _ _ Hb).
    rewrite only_append, Ho, andb_false_r.
    rewrite (rstrip_append _ _ _ Hd).
    rewrite (join_step_relative (rstrip a sep) fn Hfn).
    rewrite (join_step_relative (prefix_of cwd ++ rstrip a sep) fn Hfn).
    rewrite (prefix_of_closed (rstrip a sep) Hd (rstrip_endswith _ _)).
    rewrite (prefix_of_closed (prefix_of cwd ++ rstrip a sep)).
    + rewrite join_step_relative.
      * now rewrite !append_assoc.
      * rewrite append_assoc, startswith_append by exact Hd.
        now rewrite (rstrip_startswith _ _ _ Ho), <- Hfile, startswith_append.
    + rewrite truthy_append, Hd. apply orb_true_r.
    + rewrite endswith_append by exact Hd. apply rstrip_endswith.
  - rewrite (dirname_bare _ Hc), join_step_empty.
    now rewrite (prefix_of_dirname_bare _ Hc).
Qed.

(** A relative path resolves to different files in different working
    directories of that shape. *)
Lemma prefix_of_injective (other : string) :
  only sep other || negb (endswith other sep) = true ->
  prefix_of cwd = prefix_of other -> cwd = other.
Proof.
  assert (mixed : forall c o : string,
    only sep c || negb (endswith c sep) = true ->
    negb (truthy c) || endswith c sep = true ->
    negb (truthy o) || endswith o sep = false ->
    c = (o ++ String sep "")%string -> False).
  { intros c o Hc Hopen Hclosed E.
    apply orb_false_elim in Hclosed as [Ht He].
    apply negb_false_iff in Ht.
    assert (Hend : endswith c sep = true).
    { rewrite E, endswith_append by reflexivity. reflexivity. }
    rewrite Hend, orb_false_r in Hc.
    rewrite E, only_append in Hc. apply andb_prop in Hc as [Ho _].
    rewrite (only_endswith _ _ Ho Ht) in He. discriminate. }
  intros Hother. unfold prefix_of.
  destruct (negb (truthy cwd) || endswith cwd sep) eqn:E1;
    destruct (negb (truthy other) || endswith other sep) eqn:E2; intros E.
  - exact E.
  - exfalso. exact (mixed _ _ cwd_shape E1 E2 E).
  - exfalso. exact (mixed _ _ Hother E2 E1 (eq_sym E)).
  - now apply append_inv_tail in E.
Qed.

End Resolution.

Lemma is_cwd_shape (c : string) :
  Py.is_cwd c = true -> only sep c || negb (endswith c sep) = true.
Proof.
  unfold Py.is_cwd. rewrite only_repeat. intros H.
  now apply andb_prop in H as [_ H].
Qed.

End OsPathFacts.

(** ** Properties of the descriptor *)

Import PyStr PyStrFacts OsPath OsPathFacts Setup Py Fs Requirement.

(** The shape of one entry of [scripts]: the name [n], under [scripts],
    under what [join] makes of the descriptor's directory. *)
Lemma script_entry (file n : string) :
  startswith n sep = false ->
  _path file (join "scripts" [n])
  = ((prefix_of (dirname file) ++ "scripts") ++ String sep n)%string.
Proof.
  intros Hn. unfold _path, join. simpl fold_left.
  rewrite (join_step_relative "scripts" n Hn).
  rewrite join_step_relative by reflexivity.
  now rewrite append_assoc.
Qed.

Lemma scripts_entries (file : string) :
  scripts file
  = map (fun n => ((prefix_of (dirname file) ++ "scripts") ++ String sep n)%string)
        script_names.
Proof.
  unfold scripts, script_names. simpl map.
  now rewrite !script_entry by reflexivity.
Qed.

Lemma scripts_by_path (file : string) :
  scripts file
  = map (fun n => join (dirname file) [join "scripts" [n]]) script_names.
Proof. reflexivity. Qed.

(** Resolution of each entry, for a working directory of the shape
    [os.getcwd()] returns. *)
Lemma resolve_scripts (cwd file : string) :
  is_cwd cwd = true ->
  map (resolve cwd) (scripts file)
  = map (fun n => join (dirname (resolve cwd file)) [join "scripts" [n]])
        script_names.
Proof.
  intros Hc. apply is_cwd_shape in Hc.
  rewrite scripts_by_path, map_map. apply map_ext. intros n.
  unfold resolve, join. simpl fold_left.
  now apply resolve_join_dirname.
Qed.

(** C2: the [scripts] argument has exactly five entries, and their file
    names are multipip, pip-download, py2rpm, specprint and yyoom, in
    that order, wherever the descriptor lies. *)
Theorem scripts_are_the_five_executables (file : string) :
  kwarg "scripts" (setup_kwargs file) = Some (PyList (scripts file))
  /\ List.length (scripts file) = 5
  /\ map basename (scripts file)
     = [ "multipip"; "pip-download"; "py2rpm"; "specprint"; "yyoom" ]%string.
Proof.
  split; [reflexivity|]. split; [reflexivity|].
  rewrite scripts_entries. unfold script_names. simpl map.
  now rewrite !basename_split by reflexivity.
Qed.

(** C3: [install_requires] is exactly ['argparse', 'pip>=1.3',
    'six>=1.4.1'], in that order. *)
Theorem install_requires_exact (file : string) :
  kwarg "install_requires" (setup_kwargs file)
  = Some (PyList [ "argparse"; "pip>=1.3"; "six>=1.4.1" ]%string)
  /\ List.length install_requires = 3.
Proof. split; reflexivity. Qed.

(** C4: name, version, author, url, keywords and classifiers handed to
    the build tool are the literals of the descriptor, whatever the
    location of the descriptor. *)
Theorem metadata_fields_are_the_literals (file : string) :
  kwarg "name" (setup_kwargs file) = Some (PyString "packtools")
  /\ kwarg "version" (setup_kwargs file) = Some (PyString "0.0.1")
  /\ kwarg "author" (setup_kwargs file) = Some (PyString "OpenStack Foundation")
  /\ kwarg "url" (setup_kwargs file)
     = Some (PyString "https://github.com/harlowja/packtools/")
  /\ kwarg "keywords" (setup_kwargs file)
     = Some (PyString "packaging rpm pip yum specfile")
  /\ kwarg "classifiers" (setup_kwargs file)
     = Some (PyList [ "Development Status :: 4 - Beta";
                      "Topic :: Utilities";
                      "Operating System :: POSIX :: Linux";
                      "Programming Language :: Python" ]%string).
Proof. repeat split. Qed.

(** C7 as stated fails: not every declared specifier carries a
    minimum-version constraint, ['argparse'] carries none. *)
Lemma argparse_has_no_minimum_version :
  ~ (Forall (fun s => is_valid s = true) install_requires
     /\ Forall (fun s => has_minimum_version s = true) install_requires).
Proof.
  intros [_ H]. inversion H as [|s l Hs _]. discriminate Hs.
Qed.

(** C7, amended: every declared specifier parses as a name with an
    optional version constraint; ['pip>=1.3'] and ['six>=1.4.1'] carry a
    minimum-version constraint and ['argparse'] carries no constraint. *)
Theorem install_requires_parse :
  Forall (fun s => is_valid s = true) install_requires
  /\ map parse_requirement install_requires
     = [ Some (Req "argparse" None);
         Some (Req "pip" (Some (Ge, "1.3"%string)));
         Some (Req "six" (Some (Ge, "1.4.1"%string))) ]
  /\ map has_minimum_version install_requires = [ false; true; true ].
Proof.
  split; [|split; reflexivity].
  repeat constructor.
Qed.

(** C8: when [dirname(__file__)] is empty, [_path(fn)] is [fn] for
    every [fn]; the declared script paths are then the relative paths
    [scripts/<name>], and each of them names a different file in each
    working directory. *)
Theorem bare_descriptor_gives_relative_scripts (file : string) :
  dirname file = ""%string ->
  (forall fn, _path file fn = fn)
  /\ scripts file
     = [ "scripts/multipip"; "scripts/pip-download"; "scripts/py2rpm";
         "scripts/specprint"; "scripts/yyoom" ]%string
  /\ Forall (fun p => isabs p = false) (scripts file)
  /\ (forall cwd1 cwd2 p,
        is_cwd cwd1 = true -> is_cwd cwd2 = true ->
        In p (scripts file) ->
        resolve cwd1 p = resolve cwd2 p -> cwd1 = cwd2).
Proof.
  intros Hd.
  assert (Hs : scripts file
     = [ "scripts/multipip"; "scripts/pip-download"; "scripts/py2rpm";
         "scripts/specprint"; "scripts/yyoom" ]%string).
  { unfold scripts, _path. rewrite Hd. reflexivity. }
  split.
  { intros fn. unfold _path, join. simpl. rewrite Hd. apply join_step_empty. }
  split; [exact Hs|]. rewrite Hs. split; [repeat constructor|].
  intros cwd1 cwd2 p H1 H2 Hp E.
  apply is_cwd_shape in H1, H2.
  assert (Hrel : startswith p sep = false).
  { simpl in Hp. repeat (destruct Hp as [<- | Hp]; [reflexivity|]). destruct Hp. }
  unfold resolve, join in E. simpl in E.
  rewrite !(join_step_relative _ _ Hrel) in E.
  apply append_inv_tail in E.
  now apply (prefix_of_injective cwd1 H1 cwd2 H2).
Qed.

Lemma bare_descriptor_gives_relative_scripts_witness :
  dirname "setup.py" = ""%string /\
  _path "setup.py" "scripts/yyoom" = "scripts/yyoom"%string.
Proof.
  split; [reflexivity|].
  apply (bare_descriptor_gives_relative_scripts "setup.py"). reflexivity.
Defined.

Lemma join_scripts_name (d n : string) :
  startswith n sep = false ->
  join d ["scripts"; n]%string
  = ((prefix_of d ++ "scripts") ++ String sep n)%string.
Proof.
  intros Hn. unfold join. simpl fold_left.
  rewrite (join_step_relative d "scripts") by reflexivity.
  rewrite (join_step_relative _ n Hn).
  rewrite prefix_of_closed; [now rewrite append_snoc | |].
  - rewrite truthy_append. apply orb_true_r.
  - now rewrite endswith_append.
Qed.

Lemma dirname_script_entry (d n : string) :
  contains n sep = false ->
  dirname ((prefix_of d ++ "scripts") ++ String sep n)
  = join d ["scripts"%string].
Proof.
  intros Hn. rewrite (dirname_split _ _ Hn).
  rewrite only_append. simpl. rewrite andb_false_r.
  unfold join. simpl fold_left.
  rewrite (join_step_relative d "scripts") by reflexivity.
  apply rstrip_id. now rewrite endswith_append.
Qed.

(** C9: every entry of [scripts] is
    [join(dirname(__file__), 'scripts', <name>)], and the directory of
    every entry is [join(dirname(__file__), 'scripts')]. *)
Theorem scripts_lie_in_scripts_directory (file : string) :
  scripts file
  = map (fun n => join (dirname file) ["scripts"%string; n]) script_names
  /\ Forall (fun p => dirname p = join (dirname file) ["scripts"%string])
            (scripts file).
Proof.
  split.
  - rewrite scripts_entries. unfold script_names. cbn [map].
    now rewrite !join_scripts_name by reflexivity.
  - rewrite scripts_entries. unfold script_names. cbn [map].
    repeat constructor; now apply dirname_script_entry.
Qed.

(** C10: the package names of the three entries of [install_requires]
    are argparse, pip and six, pairwise distinct. *)
Theorem declared_packages_are_distinct :
  map package_name install_requires
  = [ Some "argparse"; Some "pip"; Some "six" ]%string
  /\ NoDup (map package_name install_requires).
Proof.
  split; [reflexivity|].
  simpl. repeat constructor; simpl; intuition discriminate.
Qed.

(** ** Further properties of [_path] *)

Lemma append_inv_head (a b c : string) :
  (a ++ b)%string = (a ++ c)%string -> b = c.
Proof.
  induction a as [|x a IH]; simpl; [trivial|].
  intros H. injection H as H. now apply IH.
Qed.

Lemma contains_relative (s : string) :
  contains s sep = false -> startswith s sep = false.
Proof.
  intros H. destruct (startswith s sep) eqn:E; [|reflexivity].
  now rewrite (contains_startswith _ _ E) in H.
Qed.

Lemma basename_bare (p : string) :
  contains p sep = false -> basename p = p.
Proof.
  intros H. unfold basename. now rewrite (rfind_absent _ _ H).
Qed.

(** What [join] puts in front is empty or ends with a separator. *)
Lemma prefix_of_shape (d : string) :
  prefix_of d = ""%string \/ endswith (prefix_of d) sep = true.
Proof.
  unfold prefix_of. destruct (truthy d) eqn:Ht; simpl.
  - right. destruct (endswith d sep) eqn:He; [exact He|].
    now rewrite endswith_append.
  - left. now apply truthy_false.
Qed.

Lemma prefix_of_idem (d : string) : prefix_of (prefix_of d) = prefix_of d.
Proof.
  destruct (prefix_of_shape d) as [E | E].
  - now rewrite E.
  - now apply prefix_of_open.
Qed.

Lemma prefix_of_append (x a : string) :
  truthy a = true -> prefix_of (x ++ a) = (x ++ prefix_of a)%string.
Proof.
  intros Ha. unfold prefix_of.
  rewrite truthy_append, Ha, orb_true_r, (endswith_append _ _ _ Ha). simpl.
  destruct (endswith a sep); [reflexivity | apply append_assoc].
Qed.

Lemma startswith_prefix_of (d x : string) (c : ascii) :
  truthy d = true -> startswith (prefix_of d ++ x) c = startswith d c.
Proof.
  intros Hd. unfold prefix_of.
  destruct (negb (truthy d) || endswith d sep).
  - now apply startswith_append.
  - rewrite append_assoc. now apply startswith_append.
Qed.

(** [dirname] returns a root or a path without trailing separator. *)
Lemma dirname_shape (p : string) :
  only sep (dirname p) || negb (endswith (dirname p) sep) = true.
Proof.
  destruct (contains p sep) eqn:Hc.
  - destruct (split_last _ _ Hc) as (a & b & -> & Hb).
    rewrite (dirname_split _ _ Hb). destruct (only sep a) eqn:Ho.
    + now rewrite only_append, Ho.
    + rewrite rstrip_endswith. apply orb_true_r.
  - now rewrite (dirname_bare _ Hc).
Qed.

(** The directory of a relative path is relative. *)
Lemma dirname_relative (p : string) :
  startswith p sep = false -> startswith (dirname p) sep = false.
Proof.
  intros Hp. destruct (contains p sep) eqn:Hc.
  - destruct (split_last _ _ Hc) as (a & b & -> & Hb).
    destruct (dirname_relative_split _ _ Hp Hb) as [Ho ->].
    rewrite (rstrip_startswith _ _ _ Ho).
    destruct a as [|x a]; [reflexivity | exact Hp].
  - now rewrite (dirname_bare _ Hc).
Qed.

(** One round of [join] is associative. *)
Lemma join_step_assoc (d a b : string) :
  join_step (join_step d a) b = join_step d (join_step a b).
Proof.
  destruct (startswith b sep) eqn:Hb.
  { now rewrite !(join_step_absolute _ b Hb). }
  destruct (startswith a sep) eqn:Ha.
  { rewrite (join_step_absolute d a Ha).
    symmetry. apply join_step_absolute. now apply join_step_keeps_absolute. }
  rewrite (join_step_relative d a Ha), (join_step_relative a b Hb).
  rewrite (join_step_relative _ b Hb).
  destruct (truthy a) eqn:Ht.
  - rewrite (prefix_of_append _ _ Ht), append_assoc.
    symmetry. apply join_step_relative.
    now rewrite (startswith_prefix_of _ _ _ Ht).
  - apply truthy_false in Ht. subst a.
    rewrite append_nil_r, prefix_of_idem. simpl.
    symmetry. now apply join_step_relative.
Qed.

Lemma join_step_fold (ps : list string) (d a : string) :
  join_step d (fold_left join_step ps a)
  = fold_left join_step ps (join_step d a).
Proof.
  revert a. induction ps as [|p ps IH]; intros a; simpl; [reflexivity|].
  now rewrite IH, join_step_assoc.
Qed.

Lemma _path_relative (file fn : string) :
  startswith fn sep = false ->
  _path file fn = (prefix_of (dirname file) ++ fn)%string.
Proof. intros H. unfold _path, join. simpl. now apply join_step_relative. Qed.

Lemma _path_absolute (file fn : string) :
  startswith fn sep = true -> _path file fn = fn.
Proof. intros H. unfold _path, join. simpl. now apply join_step_absolute. Qed.

(** X1: [_path(fn)] is absolute exactly when [fn] or [__file__] is; so
    the five script paths are absolute exactly when [__file__] is. *)
Theorem path_absolute_iff_argument_or_descriptor (file fn : string) :
  isabs (_path file fn) = isabs fn || isabs file
  /\ Forall (fun p => isabs p = isabs file) (scripts file).
Proof.
  assert (H : forall f, isabs (_path file f) = isabs f || isabs file).
  { intros f. unfold isabs. destruct (startswith f sep) eqn:Hf.
    - now rewrite (_path_absolute _ _ Hf), Hf.
    - rewrite (_path_relative _ _ Hf). simpl.
      destruct (startswith file sep) eqn:Hfile.
      + pose proof (dirname_absolute _ Hfile) as Hd.
        rewrite startswith_prefix_of; [exact Hd | now destruct (dirname file)].
      + pose proof (dirname_relative _ Hfile) as Hd.
        destruct (truthy (dirname file)) eqn:Ht.
        * now rewrite (startswith_prefix_of _ _ _ Ht).
        * apply truthy_false in Ht. now rewrite Ht. }
  split; [apply H|].
  unfold scripts. repeat constructor; now rewrite H.
Qed.

(** X2: when [__file__] is absolute, what [_path(fn)] names does not
    depend on the working directory. *)
Theorem absolute_descriptor_path_ignores_cwd (cwd file fn : string) :
  isabs file = true -> resolve cwd (_path file fn) = _path file fn.
Proof.
  intros Hf. unfold resolve, join. simpl fold_left.
  apply join_step_absolute. unfold _path, join. simpl fold_left.
  apply join_step_keeps_absolute. now apply dirname_absolute.
Qed.

Lemma absolute_descriptor_path_ignores_cwd_witness :
  isabs "/src/packtools/setup.py" = true /\
  resolve "/tmp" (_path "/src/packtools/setup.py" "README")
  = _path "/src/packtools/setup.py" "README".
Proof.
  split; [reflexivity|].
  apply (absolute_descriptor_path_ignores_cwd "/tmp" "/src/packtools/setup.py" "README").
  reflexivity.
Defined.

(** X3: for every argument [fn], resolving [_path(fn)] in the working
    directory gives what [_path(fn)] is for the resolved [__file__]. *)
Theorem path_commutes_with_resolution (cwd file fn : string) :
  is_cwd cwd = true ->
  resolve cwd (_path file fn) = _path (resolve cwd file) fn.
Proof.
  intros Hc. apply is_cwd_shape in Hc.
  unfold resolve, _path, join. simpl fold_left.
  now apply resolve_join_dirname.
Qed.

Lemma path_commutes_with_resolution_witness :
  is_cwd "/home/dev" = true /\
  resolve "/home/dev" (_path "packtools//setup.py" "tools/x")
  = _path (resolve "/home/dev" "packtools//setup.py") "tools/x".
Proof.
  split; [reflexivity|].
  apply (path_commutes_with_resolution "/home/dev" "packtools//setup.py" "tools/x").
  reflexivity.
Defined.

(** X4: [_path] keeps the file name of its argument. *)
Theorem path_keeps_basename (file fn : string) :
  basename (_path file fn) = basename fn.
Proof.
  destruct (startswith fn sep) eqn:Hfn.
  { now rewrite (_path_absolute _ _ Hfn). }
  rewrite (_path_relative _ _ Hfn).
  destruct (contains fn sep) eqn:Hc.
  - destruct (split_last _ _ Hc) as (a & b & -> & Hb).
    now rewrite <- append_assoc, !(basename_split _ _ Hb).
  - rewrite (basename_bare _ Hc).
    destruct (prefix_of_shape (dirname file)) as [E | E].
    + rewrite E. simpl. now apply basename_bare.
    + destruct (endswith_snoc _ _ E) as [x ->].
      rewrite append_snoc. now apply basename_split.
Qed.

(** X5: for a name without separator, the directory of [_path(name)] is
    the directory of [__file__]. *)
Theorem path_of_name_lies_in_descriptor_directory (file name : string) :
  contains name sep = false ->
  dirname (_path file name) = dirname file.
Proof.
  intros Hn. rewrite (_path_relative _ _ (contains_relative _ Hn)).
  exact (prefix_of_dirname_bare _ (dirname_shape file) _ Hn).
Qed.

Lemma path_of_name_lies_in_descriptor_directory_witness :
  contains "README" sep = false /\
  dirname (_path "a/b/setup.py" "README") = dirname "a/b/setup.py".
Proof.
  split; [reflexivity|].
  apply (path_of_name_lies_in_descriptor_directory "a/b/setup.py" "README").
  reflexivity.
Defined.

(** X6: for a relative argument with a directory part, the directory of
    [_path(fn)] is [_path] of the directory of [fn]. *)
Theorem dirname_of_path_is_path_of_dirname (file fn : string) :
  isabs fn = false -> contains fn sep = true ->
  dirname (_path file fn) = _path file (dirname fn).
Proof.
  unfold isabs. intros Hfn Hc.
  rewrite (_path_relative _ _ Hfn).
  rewrite (_path_relative _ _ (dirname_relative _ Hfn)).
  destruct (split_last _ _ Hc) as (a & b & -> & Hb).
  destruct (dirname_relative_split _ _ Hfn Hb) as [Ho ->].
  rewrite <- append_assoc, (dirname_split _ _ Hb).
  rewrite only_append, Ho, andb_false_r.
  apply rstrip_append. now apply rstrip_truthy.
Qed.

Lemma dirname_of_path_is_path_of_dirname_witness :
  isabs "scripts//yyoom" = false /\
  contains "scripts//yyoom" sep = true /\
  dirname (_path "/opt/setup.py" "scripts//yyoom")
  = _path "/opt/setup.py" (dirname "scripts//yyoom").
Proof.
  split; [reflexivity|]. split; [reflexivity|].
  apply (dirname_of_path_is_path_of_dirname "/opt/setup.py" "scripts//yyoom");
    reflexivity.
Defined.

(** X7: [_path(os.path.join(a, *p))], the form of every entry of
    [scripts], is [os.path.join(os.path.dirname(__file__), a, *p)]. *)
Theorem path_of_join_is_join (file a : string) (p : list string) :
  _path file (join a p) = join (dirname file) (a :: p).
Proof. unfold _path, join. simpl. apply join_step_fold. Qed.

(** X8: [_path] sends different relative arguments to different
    paths. *)
Theorem path_injective_on_relative (file fn1 fn2 : string) :
  isabs fn1 = false -> isabs fn2 = false ->
  _path file fn1 = _path file fn2 -> fn1 = fn2.
Proof.
  unfold isabs. intros H1 H2.
  rewrite (_path_relative _ _ H1), (_path_relative _ _ H2).
  apply append_inv_head.
Qed.

Lemma path_injective_on_relative_witness :
  isabs "scripts/py2rpm" = false /\
  isabs (join "scripts" ["py2rpm"]) = false /\
  _path "/x/setup.py" "scripts/py2rpm"
    = _path "/x/setup.py" (join "scripts" ["py2rpm"]) /\
  "scripts/py2rpm"%string = join "scripts" ["py2rpm"].
Proof.
  split; [reflexivity|]. split; [reflexivity|]. split; [reflexivity|].
  apply (path_injective_on_relative "/x/setup.py"
           "scripts/py2rpm" (join "scripts" ["py2rpm"]));
    reflexivity.
Defined.

(** X9: wherever the descriptor lies, the five script paths are pairwise
    distinct. *)
Theorem scripts_pairwise_distinct (file : string) : NoDup (scripts file).
Proof.
  rewrite scripts_entries. unfold script_names. cbn [map].
  repeat constructor; cbn [In]; intros H;
    repeat (destruct H as [H | H];
            [apply append_inv_head in H; discriminate H|]);
    exact H.
Qed.

(** X10: a relative argument is sent to the same path by two
    descriptors only if they lie in the same directory. *)
Theorem path_determines_descriptor_directory (file1 file2 fn : string) :
  isabs fn = false ->
  _path file1 fn = _path file2 fn -> dirname file1 = dirname file2.
Proof.
  unfold isabs. intros Hfn.
  rewrite !(_path_relative _ _ Hfn). intros E.
  apply append_inv_tail in E.
  exact (prefix_of_injective _ (dirname_shape file1) _ (dirname_shape file2) E).
Qed.

Lemma path_determines_descriptor_directory_witness :
  isabs "scripts/yyoom" = false /\
  _path "a//setup.py" "scripts/yyoom" = _path "a/setup.cfg" "scripts/yyoom" /\
  dirname "a//setup.py" = dirname "a/setup.cfg".
Proof.
  split; [reflexivity|]. split; [reflexivity|].
  apply (path_determines_descriptor_directory
           "a//setup.py" "a/setup.cfg" "scripts/yyoom");
    reflexivity.
Defined.

Lemma rstrip_length (c : ascii) (s : string) :
  String.length (rstrip s c) <= String.length s.
Proof.
  induction s as [|x s IH]; simpl; [lia|].
  destruct (rstrip s c) eqn:E.
  - destruct (Ascii.eqb x c); simpl; lia.
  - simpl in *. lia.
Qed.

Lemma prefix_of_dirname_length (file : string) :
  String.length (prefix_of (dirname file)) <= String.length file.
Proof.
  destruct (contains file sep) eqn:Hc.
  - destruct (split_last _ _ Hc) as (a & b & -> & Hb).
    rewrite (dirname_split _ _ Hb), length_append. simpl.
    destruct (only sep a) eqn:Ho.
    + rewrite prefix_of_open by now rewrite endswith_append.
      rewrite length_append. simpl. lia.
    + pose proof (rstrip_length sep a) as Hl.
      unfold prefix_of.
      destruct (negb (truthy (rstrip a sep)) || endswith (rstrip a sep) sep);
        [|rewrite length_append; simpl]; lia.
  - rewrite (dirname_bare _ Hc). simpl. lia.
Qed.

(** X11: when [__file__] is absolute, applying [_path] to a path it
    returned changes nothing. *)
Theorem path_idempotent_for_absolute_descriptor (file fn : string) :
  isabs file = true -> _path file (_path file fn) = _path file fn.
Proof.
  intros Hf. apply _path_absolute.
  unfold _path, join. simpl fold_left.
  apply join_step_keeps_absolute. now apply dirname_absolute.
Qed.

Lemma path_idempotent_for_absolute_descriptor_witness :
  isabs "/opt/packtools/setup.py" = true /\
  _path "/opt/packtools/setup.py" (_path "/opt/packtools/setup.py" "scripts/yyoom")
  = _path "/opt/packtools/setup.py" "scripts/yyoom".
Proof.
  split; [reflexivity|].
  apply (path_idempotent_for_absolute_descriptor
           "/opt/packtools/setup.py" "scripts/yyoom").
  reflexivity.
Defined.

(** X12: [_path(fn)] is never longer than [__file__] and [fn]
    together. *)
Theorem path_length_bound (file fn : string) :
  String.length (_path file fn) <= String.length file + String.length fn.
Proof.
  destruct (startswith fn sep) eqn:Hfn.
  - rewrite (_path_absolute _ _ Hfn). lia.
  - rewrite (_path_relative _ _ Hfn), length_append.
    pose proof (prefix_of_dirname_length file). lia.
Qed.

(** ** The files the script paths name *)

Lemma components_from_sep (cur a b : string) :
  components_from cur (a ++ String sep b)
  = (components_from cur a ++ components_from "" b)%list.
Proof.
  revert cur. induction a as [|x a IH]; intros cur; simpl.
  - reflexivity.
  - destruct (Ascii.eqb x sep); [|apply IH].
    now rewrite IH, app_assoc.
Qed.

Lemma components_from_snoc (cur a : string) :
  components_from cur (a ++ String sep "") = components_from cur a.
Proof. rewrite components_from_sep. simpl. apply app_nil_r. Qed.

Lemma components_from_cons (cur : string) (x : ascii) (s : string) :
  components_from cur (String x s)
  = if Ascii.eqb x sep
    then ((if truthy cur then [cur] else []) ++ components_from "" s)%list
    else components_from (cur ++ String x "") s.
Proof. reflexivity. Qed.

Lemma components_from_rstrip (cur s : string) :
  components_from cur (rstrip s sep) = components_from cur s.
Proof.
  revert cur. induction s as [|x s IH]; intros cur; [reflexivity|].
  rewrite (components_from_cons cur x s). cbn [rstrip].
  destruct (rstrip s sep) as [|y r] eqn:E.
  - rewrite <- !IH. destruct (Ascii.eqb x sep) eqn:Ex.
    + simpl. now rewrite app_nil_r.
    + now rewrite components_from_cons, Ex.
  - now rewrite components_from_cons, !IH.
Qed.

Lemma components_prefix_of (d x : string) :
  components (prefix_of d ++ x) = (components d ++ components x)%list.
Proof.
  unfold components, prefix_of. destruct (truthy d) eqn:Ht; simpl.
  - destruct (endswith d sep) eqn:He.
    + destruct (endswith_snoc _ _ He) as [a ->].
      now rewrite append_snoc, components_from_sep, components_from_snoc.
    + now rewrite append_snoc, components_from_sep.
  - apply truthy_false in Ht. now subst d.
Qed.

Section Files.

Context {node : Type} (root : node) (lookup : node -> string -> option node).

Lemma walk_app (d : option node) (xs ys : list string) :
  walk lookup d (xs ++ ys) = walk lookup (walk lookup d xs) ys.
Proof. revert d. induction xs as [|x xs IH]; intros d; simpl; [reflexivity | apply IH]. Qed.

(** A relative path joined onto [d] is followed from the directory [d]
    names. *)
Lemma namei_join (cwd : node) (d x : string) :
  startswith x sep = false -> truthy x = true ->
  namei root lookup cwd (prefix_of d ++ x)
  = walk lookup (directory_of root lookup cwd d) (components x).
Proof.
  intros Hx Ht. unfold directory_of, namei.
  rewrite truthy_append, Ht, orb_true_r, components_prefix_of, walk_app.
  destruct (truthy d) eqn:Hd.
  - unfold isabs. now rewrite (startswith_prefix_of _ _ _ Hd).
  - apply truthy_false in Hd. subst d. unfold isabs. simpl. now rewrite Hx.
Qed.

(** [dirname] of a file spelled [dir ++ base] names the directory that
    [dir] names. *)
Lemma directory_of_dirname (cwd : node) (dir base : string) :
  contains base sep = false ->
  negb (truthy dir) || endswith dir sep = true ->
  directory_of root lookup cwd (dirname (dir ++ base))
  = directory_of root lookup cwd dir.
Proof.
  intros Hb Hd. destruct (truthy dir) eqn:Ht; simpl in Hd.
  - destruct (endswith_snoc _ _ Hd) as [a ->].
    rewrite append_snoc, (dirname_split _ _ Hb).
    destruct (only sep a) eqn:Ho; [reflexivity|].
    assert (Ha : truthy a = true) by (destruct a; [discriminate | reflexivity]).
    unfold directory_of, namei, components, isabs.
    rewrite (rstrip_truthy _ _ Ho), truthy_append, Ha.
    rewrite (rstrip_startswith _ _ _ Ho), (startswith_append _ _ _ Ha).
    now rewrite components_from_rstrip, components_from_snoc.
  - apply truthy_false in Ht. subst dir. simpl.
    now rewrite (dirname_bare _ Hb).
Qed.

(** The node each script path names. *)
Lemma namei_scripts (cwd : node) (dir base : string) :
  contains base sep = false ->
  negb (truthy dir) || endswith dir sep = true ->
  map (namei root lookup cwd) (scripts (dir ++ base))
  = map (fun n => walk lookup (directory_of root lookup cwd dir)
                       ["scripts"; n]%string)
        script_names.
Proof.
  intros Hb Hd. rewrite scripts_entries, map_map. unfold script_names.
  cbn [map]. rewrite !append_assoc.
  rewrite !namei_join by reflexivity.
  now rewrite (directory_of_dirname _ _ _ Hb Hd).
Qed.

End Files.

(** C1: a script path is [join(dirname(__file__), rel)], and for a
    process in any working directory and a descriptor spelled
    [dir ++ base] it names the entry [scripts/<name>] of the directory
    the descriptor lies in, the one [dir] names from the working
    directory; so two invocations of a descriptor in the same directory,
    from any two working directories and under any two spellings, name
    the same five files. *)
Theorem scripts_resolve_in_descriptor_directory
  (node : Type) (root : node) (lookup : node -> string -> option node)
  (cwd1 cwd2 : node) (dir1 base1 dir2 base2 : string) :
  contains base1 sep = false ->
  contains base2 sep = false ->
  negb (truthy dir1) || endswith dir1 sep = true ->
  negb (truthy dir2) || endswith dir2 sep = true ->
  directory_of root lookup cwd1 dir1 = directory_of root lookup cwd2 dir2 ->
  scripts (dir1 ++ base1)
    = map (fun n => join (dirname (dir1 ++ base1)) [join "scripts" [n]])
          script_names
  /\ map (namei root lookup cwd1) (scripts (dir1 ++ base1))
     = map (fun n => walk lookup (directory_of root lookup cwd1 dir1)
                          ["scripts"; n]%string)
           script_names
  /\ map (namei root lookup cwd1) (scripts (dir1 ++ base1))
     = map (namei root lookup cwd2) (scripts (dir2 ++ base2)).
Proof.
  intros Hb1 Hb2 Hd1 Hd2 Hsame.
  split; [apply scripts_by_path|].
  split; [now apply namei_scripts|].
  rewrite (namei_scripts root lookup _ _ _ Hb1 Hd1).
  rewrite (namei_scripts root lookup _ _ _ Hb2 Hd2).
  now rewrite Hsame.
Qed.

Lemma scripts_resolve_in_descriptor_directory_witness :
  contains "setup.py" sep = false /\
  negb (truthy "./") || endswith "./" sep = true /\
  negb (truthy "../packtools/") || endswith "../packtools/" sep = true /\
  directory_of [] lexical_lookup ["src"; "packtools"]%string "./"
    = Some ["src"; "packtools"]%string /\
  directory_of [] lexical_lookup ["src"; "other"]%string "../packtools/"
    = Some ["src"; "packtools"]%string /\
  map (namei [] lexical_lookup ["src"; "packtools"]%string)
      (scripts ("./" ++ "setup.py")%string)
    = map (fun n => walk lexical_lookup
                      (directory_of [] lexical_lookup
                                    ["src"; "packtools"]%string "./")
                      ["scripts"; n]%string)
          script_names /\
  map (namei [] lexical_lookup ["src"; "packtools"]%string)
      (scripts ("./" ++ "setup.py")%string)
    = map (namei [] lexical_lookup ["src"; "other"]%string)
          (scripts ("../packtools/" ++ "setup.py")%string).
Proof.
  split; [reflexivity|]. split; [reflexivity|]. split; [reflexivity|].
  split; [reflexivity|]. split; [reflexivity|].
  apply (scripts_resolve_in_descriptor_directory
           (list string) [] lexical_lookup
           ["src"; "packtools"]%string ["src"; "other"]%string
           "./" "setup.py" "../packtools/" "setup.py");
    reflexivity.
Defined.

(** ** Running the module *)

(** One entry of [scripts], run once the module's names are bound. *)
Lemma scripts_item_run (g : string -> option object) (w : world)
  (file name : string) :
  g "__file__" = Some (OStr file) ->
  scripts_item name (State (module_globals g) w)
  = (Returned (OStr (_path file (join "scripts" [name]))),
     State (module_globals g) w).
Proof.
  intros Hf.
  unfold scripts_item, call, _path_body, call_attr, call_os, load_global,
    bind, ret.
  cbn. rewrite Hf. reflexivity.
Qed.

(** The module, run from a state in which [__file__] is a string and
    both imports succeed: it returns the keyword arguments of
    [setup_kwargs], binds its three names and leaves the world alone. *)
Lemma module_body_run (s : state) (file : string) :
  globals s "__file__" = Some (OStr file) ->
  importable (outside s) "os" = true ->
  importable (outside s) "setuptools" = true ->
  module_body s
  = (Returned (to_keywords (setup_kwargs file)),
     State (module_globals (globals s)) (outside s)).
Proof.
  intros Hf Hos Hst. destruct s as [g w]. cbn [globals outside] in *.
  unfold module_body.
  unfold bind at 1. unfold import_. cbn [outside]. rewrite Hos.
  unfold store_global at 1. cbn [globals outside].
  unfold bind at 1. unfold from_import. cbn [outside]. rewrite Hst.
  unfold store_global at 1. cbn [globals outside].
  unfold bind at 1. unfold def_, store_global. cbn [globals outside].
  change (fun n : string =>
            if (n =? "_path")%string then Some (OFunction "_path")
            else if (n =? "setup")%string
                 then Some (OFunction ("setuptools" ++ "." ++ "setup"))
                 else if (n =? "os")%string then Some (OModule "os") else g n)
    with (module_globals g).
  unfold bind at 1. unfold load_global at 1. cbn [globals].
  unfold module_globals at 1. cbn [String.eqb Ascii.eqb Bool.eqb].
  repeat (unfold bind at 1; rewrite (scripts_item_run g w file _ Hf)).
  reflexivity.
Qed.

(** What the module can fail on: without [__file__] the first call of
    [_path] raises, and without [setuptools] the import does. *)
Lemma module_body_needs_file (w : world) :
  importable w "os" = true -> importable w "setuptools" = true ->
  fst (module_body (State (fun _ => None) w)) = Raised "NameError".
Proof.
  intros Hos Hst. unfold module_body, bind, import_, from_import.
  cbn. rewrite Hos. cbn. rewrite Hst. reflexivity.
Qed.

Lemma module_body_needs_setuptools (s : state) :
  importable (outside s) "os" = true ->
  importable (outside s) "setuptools" = false ->
  fst (module_body s) = Raised "ImportError".
Proof.
  intros Hos Hst. unfold module_body, bind, import_, from_import.
  cbn. rewrite Hos. cbn. rewrite Hst. reflexivity.
Qed.

(** A call of [os.path.exists] is recorded in the world. *)
Lemma path_exists_recorded (s : state) (p : string) :
  fs_calls (outside (snd (call_os "path.exists" [OStr p] s)))
  = p :: fs_calls (outside s).
Proof. reflexivity. Qed.

(** Binding the module's names a second time changes no binding. *)
Lemma module_globals_idem (g : string -> option object) (n : string) :
  module_globals (module_globals g) n = module_globals g n.
Proof.
  unfold module_globals.
  destruct (n =? "_path")%string; [reflexivity|].
  destruct (n =? "setup")%string; [reflexivity|].
  now destruct (n =? "os")%string.
Qed.

(** Only the [scripts] keyword depends on [__file__]. *)
Lemma kwarg_same_but_scripts (k file1 file2 : string) :
  k <> "scripts"%string ->
  kwarg k (setup_kwargs file1) = kwarg k (setup_kwargs file2).
Proof.
  intros Hk. unfold setup_kwargs. cbn [kwarg].
  repeat match goal with
         | |- context [(?a =? k)%string] =>
             destruct (String.eqb_spec a k); [congruence|]
         end.
  reflexivity.
Qed.

(** C5 as stated fails: one descriptor location, spelled [setup.py] from
    its own directory and [/src/packtools/setup.py], gives two different
    records. *)
Lemma same_location_two_spellings_differ :
  ~ (forall (w : world) (cwd file1 file2 : string),
       is_cwd cwd = true ->
       resolve cwd file1 = resolve cwd file2 ->
       fst (run_script file1 w) = fst (run_script file2 w)).
Proof.
  intros H.
  specialize (H (World "/src/packtools" (fun _ => true) [] (fun _ => true))
                "/src/packtools" "setup.py" "/src/packtools/setup.py"
                eq_refl eq_refl).
  vm_compute in H. discriminate H.
Qed.

(** C5, amended: two evaluations with the same string for [__file__]
    give the same record, whatever else the globals and the world hold;
    evaluating again from the state an evaluation left gives that record
    again and changes neither the world nor any binding; and for two
    spellings of [__file__] the records agree on every keyword other
    than [scripts]. *)
Theorem evaluation_deterministic_for_same_file
  (s s' : state) (file : string) :
  globals s "__file__" = Some (OStr file) ->
  importable (outside s) "os" = true ->
  importable (outside s) "setuptools" = true ->
  globals s' "__file__" = Some (OStr file) ->
  importable (outside s') "os" = true ->
  importable (outside s') "setuptools" = true ->
  fst (module_body s) = Returned (to_keywords (setup_kwargs file))
  /\ fst (module_body s) = fst (module_body s')
  /\ fst (module_body (snd (module_body s))) = fst (module_body s)
  /\ outside (snd (module_body (snd (module_body s)))) = outside s
  /\ (forall n, globals (snd (module_body (snd (module_body s)))) n
                = globals (snd (module_body s)) n)
  /\ (forall k file', k <> "scripts"%string ->
        kwarg k (setup_kwargs file) = kwarg k (setup_kwargs file')).
Proof.
  intros Hf Hos Hst Hf' Hos' Hst'.
  rewrite (module_body_run s file Hf Hos Hst).
  rewrite (module_body_run s' file Hf' Hos' Hst').
  cbn [fst snd].
  rewrite (module_body_run (State (module_globals (globals s)) (outside s)) file)
    by (cbn; assumption).
  cbn [fst snd globals outside].
  repeat split.
  - intros n. apply module_globals_idem.
  - intros k file' Hk. now apply kwarg_same_but_scripts.
Qed.

Lemma evaluation_deterministic_for_same_file_witness :
  fst (run_script "setup.py" (World "/src/packtools" (fun _ => true) [] (fun _ => true)))
  = fst (module_body
           (State (fun n => if (n =? "_path")%string then Some (OStr "stale")
                            else script_globals "setup.py" n)
                  (World "/tmp" (fun _ => false) ["x"%string] (fun _ => true)))).
Proof.
  apply (evaluation_deterministic_for_same_file
           (State (script_globals "setup.py")
                  (World "/src/packtools" (fun _ => true) [] (fun _ => true)))
           (State (fun n => if (n =? "_path")%string then Some (OStr "stale")
                            else script_globals "setup.py" n)
                  (World "/tmp" (fun _ => false) ["x"%string] (fun _ => true)))
           "setup.py");
    reflexivity.
Defined.

(** C6: whatever files exist, when [__file__] is a string and the two
    imports succeed, evaluating the descriptor returns the keyword
    arguments without raising, asks the filesystem nothing and leaves
    the world as it was. *)
Theorem evaluation_total_without_existence_check
  (s : state) (file : string) :
  globals s "__file__" = Some (OStr file) ->
  importable (outside s) "os" = true ->
  importable (outside s) "setuptools" = true ->
  fst (module_body s) = Returned (to_keywords (setup_kwargs file))
  /\ fs_calls (outside (snd (module_body s))) = fs_calls (outside s)
  /\ outside (snd (module_body s)) = outside s.
Proof.
  intros Hf Hos Hst. rewrite (module_body_run s file Hf Hos Hst).
  repeat split.
Qed.

Lemma evaluation_total_without_existence_check_witness :
  fst (run_script "/src/packtools/setup.py"
         (World "/" (fun _ => false) [] (fun _ => true)))
  = Returned (to_keywords (setup_kwargs "/src/packtools/setup.py"))
  /\ fs_calls (outside (snd (run_script "/src/packtools/setup.py"
         (World "/" (fun _ => false) [] (fun _ => true))))) = [].
Proof.
  pose proof (evaluation_total_without_existence_check
                (State (script_globals "/src/packtools/setup.py")
                       (World "/" (fun _ => false) [] (fun _ => true)))
                "/src/packtools/setup.py" eq_refl eq_refl eq_refl)
    as (H1 & H2 & _).
  split; [exact H1 | exact H2].
Defined.
